(** * Signaling relay (app.py): room membership and message relay

    A shallow embedding of the three Socket.IO event handlers of
    [app.py] ([handle_connect], [handle_disconnect], [handle_signal])
    together with the state they act on: the module-level dictionary
    [connected_users] and the room table kept by the Socket.IO server. *)

From stdpp Require Import gmap strings list fin_maps.

Set Warnings "-register-all".

(** ** Python values *)

(** The values a Socket.IO client can submit as an event argument are the
    JSON ones.  A [dict] keeps its items in insertion order, keys are
    strings. *)
Inductive pyvalue : Type :=
| PyNone : pyvalue
| PyBool : bool -> pyvalue
| PyInt : Z -> pyvalue
| PyStr : string -> pyvalue
| PyList : list pyvalue -> pyvalue
| PyDict : list (string * pyvalue) -> pyvalue.

(** The exceptions the handlers can raise: looking up the attribute
    [get] on a value that is not a [dict], and writing to standard output
    a text that its encoding cannot represent. *)
Inductive pyexn : Type :=
| AttributeError : pyexn
| UnicodeEncodeError : pyexn.

Inductive result (A : Type) : Type :=
| Ok : A -> result A
| Raise : pyexn -> result A.

Arguments Ok {A} _.
Arguments Raise {A} _.

Definition is_dict (v : pyvalue) : bool :=
  match v with
  | PyDict _ => true
  | _ => false
  end.

(** [d.get(key)] on the items of a dictionary: the value stored under
    [key], [None] when there is none. *)
Fixpoint dict_get (items : list (string * pyvalue)) (key : string) : pyvalue :=
  match items with
  | [] => PyNone
  | (k, v) :: rest => if String.eqb k key then v else dict_get rest key
  end.

(** ** State and outbound messages *)

(** [connected_users] is the dictionary of [app.py]; [rooms] is the room
    table of the Socket.IO server, room name to member set, restricted to
    the rooms the handlers address (the server also keeps a room for each
    connection, which [app.py] never names). *)
Record world : Type := World {
  connected_users : gmap string pyvalue;
  rooms : gmap string (gset string)
}.

(** One unicast performed by the server: event [event] with argument
    [data] delivered to connection [target]. *)
Record emission : Type := Emission {
  target : string;
  event : string;
  data : pyvalue
}.

Definition initial : world := World ∅ ∅.

(** ** The handler monad

    A handler reads and updates the world, appends to the list of
    emissions and may raise.  What was done before a [Raise] stays done,
    as in Python. *)
Definition handler (A : Type) : Type :=
  world -> result A * world * list emission.

Definition ret {A : Type} (a : A) : handler A :=
  fun w => (Ok a, w, []).

Definition bind {A B : Type} (m : handler A) (f : A -> handler B) : handler B :=
  fun w =>
    match m w with
    | (Ok a, w1, out1) =>
        match f a w1 with
        | (r, w2, out2) => (r, w2, out1 ++ out2)
        end
    | (Raise e, w1, out1) => (Raise e, w1, out1)
    end.

Definition raise {A : Type} (e : pyexn) : handler A :=
  fun w => (Raise e, w, []).

Declare Scope handler_scope.
Delimit Scope handler_scope with handler.
Bind Scope handler_scope with handler.

Notation "x ← m ; k" := (bind m (fun x => k))
  (at level 20, m at level 100, k at level 200, only parsing) : handler_scope.
Notation "m ;; k" := (bind m (fun _ => k))
  (at level 100, k at level 200, only parsing, right associativity) : handler_scope.

Open Scope handler_scope.

Definition outcome {A : Type} (r : result A * world * list emission) : result A := r.1.1.
Definition world_after {A : Type} (r : result A * world * list emission) : world := r.1.2.
Definition emitted {A : Type} (r : result A * world * list emission) : list emission := r.2.

(** ** Primitives on [connected_users] *)

(** [connected_users[sid] = v] *)
Definition users_setitem (sid : string) (v : pyvalue) : handler unit :=
  fun w => (Ok tt, World (<[sid := v]> (connected_users w)) (rooms w), []).

(** [sid in connected_users] *)
Definition users_contains (sid : string) : handler bool :=
  fun w => (Ok (bool_decide (is_Some (connected_users w !! sid))), w, []).

(** [del connected_users[sid]] *)
Definition users_delitem (sid : string) : handler unit :=
  fun w => (Ok tt, World (delete sid (connected_users w)) (rooms w), []).

(** ** Room table and transport *)

(** The members of a room; a room that was never created has none. *)
Definition members (room : string) (w : world) : gset string :=
  default ∅ (rooms w !! room).

(** Modelled from the spec: [members_except] of the Room Directory, which
    stands for the room table of the Socket.IO library (not part of
    [app.py]): the connections in the room other than the excluded one,
    the empty set if the room does not exist. *)
Definition members_except (room : string) (excluded : string) (w : world) : gset string :=
  members room w ∖ {[excluded]}.

(** Modelled from the spec: [join] of the Room Directory, the library's
    [join_room] for the current connection: adds the connection to the
    room's member set, creating the room if absent; joining twice is a
    no-op. *)
Definition join_room (room : string) (sid : string) : handler unit :=
  fun w => (Ok tt,
            World (connected_users w) (<[room := {[sid]} ∪ members room w]> (rooms w)),
            []).

(** Modelled from the spec: [leave] of the Room Directory, the library's
    [leave_room] for the current connection: removes the connection from
    the room's member set if present, no-op if absent; an empty room is
    kept. *)
Definition leave_room (room : string) (sid : string) : handler unit :=
  fun w =>
    match rooms w !! room with
    | Some ms => (Ok tt, World (connected_users w) (<[room := ms ∖ {[sid]}]> (rooms w)), [])
    | None => (Ok tt, w, [])
    end.

(** Modelled from the spec: the outbound [broadcast(room, excluded | none,
    event, payload)] of the Transport Adapter, the library's
    [emit(event, data, room=..., skip_sid=...)]: one send per member of the
    room, the excluded connection left out. *)
Definition emit (ev : string) (payload : pyvalue) (room : string)
    (skip_sid : option string) : handler unit :=
  fun w =>
    let targets :=
      match skip_sid with
      | Some s => members_except room s w
      | None => members room w
      end in
    (Ok tt, w, (fun t => Emission t ev payload) <$> elements targets).

(** ** Python operations used by the handlers *)

(** [message.get(key)]: only a [dict] has the attribute [get]. *)
Definition py_get (message : pyvalue) (key : string) : handler pyvalue :=
  match message with
  | PyDict items => ret (dict_get items key)
  | _ => raise AttributeError
  end.

(** A [str] is kept as the UTF-8 bytes of its code points.  A [str]
    decoded from JSON can hold a lone surrogate code point (U+D800 to
    U+DFFF, as in the JSON text "\ud800"); it is kept as its three-byte
    form, the byte 237 followed by a byte from 160 to 191 and one more. *)
Fixpoint has_surrogate (s : string) : bool :=
  match s with
  | EmptyString => false
  | String c rest =>
      match rest with
      | EmptyString => false
      | String d _ =>
          (N.eqb (Ascii.N_of_ascii c) 237 && N.leb 160 (Ascii.N_of_ascii d) && N.leb (Ascii.N_of_ascii d) 191)
          || has_surrogate rest
      end
  end.

(** Whether [str(v)], what an f-string writes for [{v}], can be encoded
    for standard output, taken to be UTF-8 with the strict error handler:
    every text but one with a surrogate.  [str] of a [str] is the string
    itself; [str] of [None], a [bool] or an [int] is ASCII; [str] of a
    [list] or a [dict] is built with [repr], which writes a surrogate as
    an escape sequence. *)
Definition stdout_encodable (v : pyvalue) : bool :=
  match v with
  | PyStr s => negb (has_surrogate s)
  | _ => true
  end.

(** The pieces of a formatted line: the literal text of the f-string,
    [request.sid] (a token the server generates from the URL-safe base64
    alphabet, which every encoding accepts), and a formatted value. *)
Inductive fragment : Type :=
| Lit : string -> fragment
| Sid : string -> fragment
| Fmt : pyvalue -> fragment.

Definition fragment_encodable (f : fragment) : bool :=
  match f with
  | Lit _ => true
  | Sid _ => true
  | Fmt v => stdout_encodable v
  end.

(** [print(f"...")]: writes the line to standard output, which is not
    part of the state the handlers share, and raises when the line cannot
    be encoded. *)
Definition print (line : list fragment) : handler unit :=
  if forallb fragment_encodable line then ret tt else raise UnicodeEncodeError.

(** ** The handlers of app.py

    [request.sid], the identifier of the connection the event comes from,
    is the first argument. *)

Definition chat_room : string := "chat_room".

Definition user_info (sid : string) : pyvalue := PyDict [("sid", PyStr sid)].

Definition handle_connect (sid : string) : handler unit :=
  print [Lit "Client connected: "; Sid sid];;
  users_setitem sid (user_info sid);;
  join_room chat_room sid;;
  print [Lit "Client "; Sid sid; Lit " joined room 'chat_room'"].

Definition handle_disconnect (sid : string) : handler unit :=
  print [Lit "Client disconnected: "; Sid sid];;
  present ← users_contains sid;
  (if present then users_delitem sid else ret tt);;
  leave_room chat_room sid;;
  print [Lit "Client "; Sid sid; Lit " left room 'chat_room'"];;
  emit "user-left" (PyDict [("sid", PyStr sid)]) chat_room None.

Definition handle_signal (sid : string) (message : pyvalue) : handler unit :=
  ty ← py_get message "type";
  print [Lit "Received signal from "; Sid sid; Lit ": Type "; Fmt ty];;
  emit "signal" message chat_room (Some sid).

(** ** Events delivered by the transport *)

Inductive transport_event : Type :=
| EvConnect : string -> transport_event
| EvDisconnect : string -> transport_event
| EvSignal : string -> pyvalue -> transport_event.

Definition dispatch (e : transport_event) : handler unit :=
  match e with
  | EvConnect sid => handle_connect sid
  | EvDisconnect sid => handle_disconnect sid
  | EvSignal sid message => handle_signal sid message
  end.

(** One event is handled to completion before the next; a handler that
    raises leaves the world as its last completed statement made it. *)
Definition step (w : world) (e : transport_event) : world :=
  world_after (dispatch e w).

Definition run (es : list transport_event) : world := foldl step initial es.

Inductive reachable : world -> Prop :=
| reachable_initial : reachable initial
| reachable_step w e : reachable w -> reachable (step w e).

(** The member set of the default room and the set of registered
    connections. *)
Definition room_members (w : world) : gset string := members chat_room w.
Definition registered (w : world) : gset string := dom (connected_users w).

Definition targets (out : list emission) : list string := target <$> out.

(** ** The invariant of the reachable states *)

(** Every member of any room is registered, every registered connection
    is a member of the default room with its own record, and the default
    room is the only one. *)
Record consistent (w : world) : Prop := Consistent {
  cons_members : forall room c, c ∈ members room w -> c ∈ registered w;
  cons_joined : forall c, c ∈ registered w -> c ∈ room_members w;
  cons_record : forall c v, connected_users w !! c = Some v -> v = user_info c;
  cons_rooms : forall room, room <> chat_room -> rooms w !! room = None
}.

(** ** Payloads that pass the log line *)

(** The payloads on which [handle_signal] gets past its [print]: a [dict]
    whose [type] entry ([None] when it has none) can be written to
    standard output. *)
Definition loggable (message : pyvalue) : bool :=
  match message with
  | PyDict items => stdout_encodable (dict_get items "type")
  | _ => false
  end.

(** The payload decoded from the JSON text [{"type": "\ud800"}]. *)
Definition surrogate_payload : pyvalue :=
  PyDict [("type", PyStr (String (Ascii.ascii_of_N 237)
                            (String (Ascii.ascii_of_N 160)
                               (String (Ascii.ascii_of_N 128) EmptyString))))].

(** ** Event sequences *)

(** The connection an event comes from ([request.sid]). *)
Definition event_sid (e : transport_event) : string :=
  match e with
  | EvConnect sid => sid
  | EvDisconnect sid => sid
  | EvSignal sid _ => sid
  end.

(** Whether the last connect or disconnect event of connection [c] in a
    sequence of events is a connect. *)
Definition alive_step (c : string) (b : bool) (e : transport_event) : bool :=
  match e with
  | EvConnect sid => if decide (sid = c) then true else b
  | EvDisconnect sid => if decide (sid = c) then false else b
  | EvSignal _ _ => b
  end.

Definition alive (es : list transport_event) (c : string) : bool :=
  foldl (alive_step c) false es.

(** A sequence of events with its relay events taken out. *)
Fixpoint without_signals (es : list transport_event) : list transport_event :=
  match es with
  | [] => []
  | EvSignal _ _ :: rest => without_signals rest
  | e :: rest => e :: without_signals rest
  end.

(** * Properties *)

(** ** What each handler computes *)

Lemma handle_connect_eq (sid : string) (w : world) :
  handle_connect sid w =
    (Ok tt,
     World (<[sid := user_info sid]> (connected_users w))
           (<[chat_room := {[sid]} ∪ members chat_room w]> (rooms w)),
     []).
Proof. reflexivity. Qed.

Lemma handle_signal_dict (sid : string) (items : list (string * pyvalue)) (w : world) :
  stdout_encodable (dict_get items "type") = true ->
  handle_signal sid (PyDict items) w =
    (Ok tt, w,
     (fun t => Emission t "signal" (PyDict items))
       <$> elements (members_except chat_room sid w)).
Proof.
  intros Henc. unfold handle_signal, bind, py_get, ret, print; simpl.
  by rewrite Henc.
Qed.

Lemma handle_signal_unencodable (sid : string) (items : list (string * pyvalue)) (w : world) :
  stdout_encodable (dict_get items "type") = false ->
  handle_signal sid (PyDict items) w = (Raise UnicodeEncodeError, w, []).
Proof.
  intros Henc. unfold handle_signal, bind, py_get, ret, print; simpl.
  by rewrite Henc.
Qed.

Lemma handle_signal_loggable (sid : string) (message : pyvalue) (w : world) :
  loggable message = true ->
  handle_signal sid message w =
    (Ok tt, w,
     (fun t => Emission t "signal" message)
       <$> elements (members_except chat_room sid w)).
Proof.
  destruct message; simpl; intros Hl; try discriminate Hl.
  by apply handle_signal_dict.
Qed.

Lemma handle_signal_not_loggable (sid : string) (message : pyvalue) (w : world) :
  loggable message = false ->
  world_after (handle_signal sid message w) = w /\
  emitted (handle_signal sid message w) = [] /\
  outcome (handle_signal sid message w) =
    Raise (if is_dict message then UnicodeEncodeError else AttributeError).
Proof.
  destruct message; simpl; intros Hl; try (by repeat split).
  by rewrite handle_signal_unencodable.
Qed.

Lemma handle_signal_not_dict (sid : string) (message : pyvalue) (w : world) :
  is_dict message = false ->
  handle_signal sid message w = (Raise AttributeError, w, []).
Proof. destruct message; simpl; intros Hd; try discriminate Hd; reflexivity. Qed.

Lemma handle_disconnect_emitted (sid : string) (w : world) :
  emitted (handle_disconnect sid w) =
    (fun t => Emission t "user-left" (PyDict [("sid", PyStr sid)]))
      <$> elements (room_members (world_after (handle_disconnect sid w))).
Proof.
  unfold handle_disconnect, bind, print, ret, users_contains, leave_room; simpl.
  case_bool_decide; simpl; destruct (rooms w !! chat_room); reflexivity.
Qed.

Lemma handle_disconnect_outcome (sid : string) (w : world) :
  outcome (handle_disconnect sid w) = Ok tt.
Proof.
  unfold handle_disconnect, bind, print, ret, users_contains, leave_room; simpl.
  case_bool_decide; simpl; destruct (rooms w !! chat_room); reflexivity.
Qed.

Lemma handle_disconnect_users (sid : string) (w : world) :
  connected_users (world_after (handle_disconnect sid w)) =
    delete sid (connected_users w).
Proof.
  unfold handle_disconnect, bind, print, ret, users_contains, leave_room; simpl.
  case_bool_decide as Hin; simpl; destruct (rooms w !! chat_room);
    unfold world_after; simpl; try reflexivity.
  all: symmetry; apply delete_id; by apply eq_None_not_Some.
Qed.

Lemma handle_disconnect_rooms (sid : string) (w : world) :
  rooms (world_after (handle_disconnect sid w)) =
    match rooms w !! chat_room with
    | Some ms => <[chat_room := ms ∖ {[sid]}]> (rooms w)
    | None => rooms w
    end.
Proof.
  unfold handle_disconnect, bind, print, ret, users_contains, leave_room; simpl.
  case_bool_decide; simpl; destruct (rooms w !! chat_room); reflexivity.
Qed.

Lemma handle_disconnect_members (room sid : string) (w : world) :
  members room (world_after (handle_disconnect sid w)) =
    if decide (room = chat_room) then members room w ∖ {[sid]} else members room w.
Proof.
  unfold members. rewrite handle_disconnect_rooms.
  destruct (decide (room = chat_room)) as [Hr|Hr].
  - subst room. destruct (rooms w !! chat_room) as [ms|] eqn:E.
    + by rewrite lookup_insert_eq.
    + rewrite E. simpl. apply set_eq. intros x.
      rewrite elem_of_difference, elem_of_empty. tauto.
  - destruct (rooms w !! chat_room) as [ms|] eqn:E; [|done].
    by rewrite lookup_insert_ne.
Qed.

Lemma handle_connect_members (room sid : string) (w : world) :
  members room (world_after (handle_connect sid w)) =
    if decide (room = chat_room) then {[sid]} ∪ members room w else members room w.
Proof.
  rewrite handle_connect_eq. unfold world_after, members; simpl.
  destruct (decide (room = chat_room)) as [Hr|Hr].
  - subst room. by rewrite lookup_insert_eq.
  - by rewrite lookup_insert_ne.
Qed.

Lemma handle_signal_world (sid : string) (message : pyvalue) (w : world) :
  world_after (handle_signal sid message w) = w.
Proof.
  destruct (loggable message) eqn:Hl.
  - by rewrite handle_signal_loggable.
  - by destruct (handle_signal_not_loggable sid message w Hl) as (Hw & _ & _).
Qed.

Lemma world_eq (w1 w2 : world) :
  connected_users w1 = connected_users w2 -> rooms w1 = rooms w2 -> w1 = w2.
Proof. destruct w1, w2; simpl; congruence. Qed.

(** The targets of an emission to a set of connections. *)
Lemma targets_fmap (ev : string) (payload : pyvalue) (l : list string) :
  targets ((fun t => Emission t ev payload) <$> l) = l.
Proof.
  unfold targets. induction l as [|x l IH]; [done |].
  rewrite !fmap_cons. simpl. f_equal. exact IH.
Qed.

(** ** The invariant holds in every reachable state *)

Lemma consistent_initial : consistent initial.
Proof.
  split; unfold registered, room_members, members; simpl.
  - intros room c. rewrite lookup_empty. simpl. set_solver.
  - intros c. rewrite dom_empty_L. set_solver.
  - intros c v. by rewrite lookup_empty.
  - intros room _. apply lookup_empty.
Qed.

Lemma consistent_connect (sid : string) (w : world) :
  consistent w -> consistent (world_after (handle_connect sid w)).
Proof.
  intros [Hm Hj Hr Ho]. split.
  - intros room c. rewrite handle_connect_members.
    unfold registered. rewrite handle_connect_eq. unfold world_after; simpl.
    rewrite dom_insert_L. case_decide.
    + intros [Hc|Hc]%elem_of_union; [set_solver|].
      apply elem_of_union_r. by apply (Hm room).
    + intros Hc. apply elem_of_union_r. by apply (Hm room).
  - intros c. unfold room_members. rewrite handle_connect_members.
    rewrite decide_True by done.
    unfold registered. rewrite handle_connect_eq. unfold world_after; simpl.
    rewrite dom_insert_L. intros [Hc|Hc]%elem_of_union; [set_solver|].
    apply elem_of_union_r. by apply Hj.
  - intros c v. rewrite handle_connect_eq. unfold world_after; simpl.
    destruct (decide (sid = c)) as [->|Hne].
    + rewrite lookup_insert_eq. congruence.
    + rewrite lookup_insert_ne by done. apply Hr.
  - intros room Hne. rewrite handle_connect_eq. unfold world_after; simpl.
    rewrite lookup_insert_ne by done. by apply Ho.
Qed.

Lemma consistent_disconnect (sid : string) (w : world) :
  consistent w -> consistent (world_after (handle_disconnect sid w)).
Proof.
  intros [Hm Hj Hr Ho]. split.
  - intros room c. rewrite handle_disconnect_members.
    unfold registered. rewrite handle_disconnect_users, dom_delete_L.
    case_decide as Hroom.
    + intros [Hc Hne]%elem_of_difference. apply elem_of_difference.
      split; [by apply (Hm room) | done].
    + intros Hc. exfalso. unfold members in Hc.
      rewrite (Ho room Hroom) in Hc. simpl in Hc. set_solver.
  - intros c. unfold room_members. rewrite handle_disconnect_members.
    rewrite decide_True by done.
    unfold registered. rewrite handle_disconnect_users, dom_delete_L.
    intros [Hc Hne]%elem_of_difference. apply elem_of_difference.
    split; [by apply Hj | done].
  - intros c v. rewrite handle_disconnect_users.
    intros [_ Hl]%lookup_delete_Some. by apply Hr.
  - intros room Hne. rewrite handle_disconnect_rooms.
    destruct (rooms w !! chat_room); [|by apply Ho].
    rewrite lookup_insert_ne by done. by apply Ho.
Qed.

Lemma consistent_step (w : world) (e : transport_event) :
  consistent w -> consistent (step w e).
Proof.
  intros Hw. unfold step. destruct e as [sid|sid|sid message]; simpl.
  - by apply consistent_connect.
  - by apply consistent_disconnect.
  - by rewrite handle_signal_world.
Qed.

Lemma run_snoc (es : list transport_event) (e : transport_event) :
  run (es ++ [e]) = step (run es) e.
Proof. unfold run. by rewrite foldl_app. Qed.

Lemma consistent_run (es : list transport_event) : consistent (run es).
Proof.
  induction es as [|e es IH] using rev_ind.
  - apply consistent_initial.
  - rewrite run_snoc. by apply consistent_step.
Qed.

Lemma reachable_run (w : world) : reachable w <-> exists es, w = run es.
Proof.
  split.
  - induction 1 as [|w e _ [es ->]].
    + by exists [].
    + exists (es ++ [e]). by rewrite run_snoc.
  - intros [es ->]. induction es as [|e es IH] using rev_ind.
    + constructor.
    + rewrite run_snoc. by constructor.
Qed.

(** ** Relay *)

(** X15: for every relay event whose payload passes the log line, from
    a sender that is a member of the default room with N other members,
    the handler makes exactly N sends, all of the event [signal], one to each
    member other than the sender and none to the sender. *)
Lemma relay_excludes_sender (w : world) (sender : string) (message : pyvalue) (N : nat) :
  loggable message = true ->
  sender ∈ room_members w ->
  size (room_members w) = S N ->
  outcome (handle_signal sender message w) = Ok tt /\
  length (emitted (handle_signal sender message w)) = N /\
  Forall (fun e => event e = "signal") (emitted (handle_signal sender message w)) /\
  NoDup (targets (emitted (handle_signal sender message w))) /\
  (forall t, t ∈ targets (emitted (handle_signal sender message w)) <->
             t ∈ room_members w /\ t <> sender) /\
  sender ∉ targets (emitted (handle_signal sender message w)).
Proof.
  intros Hlog Hin Hsize. rewrite handle_signal_loggable by done.
  unfold outcome, emitted; simpl.
  rewrite targets_fmap. unfold members_except. fold (room_members w).
  split; [reflexivity|]. split.
  - rewrite length_fmap. change (size (room_members w ∖ {[sender]}) = N).
    rewrite size_difference by set_solver.
    rewrite size_singleton. lia.
  - split; [|split; [|split]].
    + apply Forall_fmap. apply Forall_forall. by intros t _.
    + apply NoDup_elements.
    + intros t. rewrite elem_of_elements, elem_of_difference, elem_of_singleton. tauto.
    + rewrite elem_of_elements, elem_of_difference, elem_of_singleton. tauto.
Qed.

Lemma relay_excludes_sender_witness :
  outcome (handle_signal "A" (PyDict [("type", PyStr "offer")])
             (run [EvConnect "A"; EvConnect "B"])) = Ok tt /\
  length (emitted (handle_signal "A" (PyDict [("type", PyStr "offer")])
                     (run [EvConnect "A"; EvConnect "B"]))) = 1.
Proof.
  pose proof (relay_excludes_sender (run [EvConnect "A"; EvConnect "B"]) "A"
                (PyDict [("type", PyStr "offer")]) 1) as H.
  destruct H as (Ho & Hl & _).
  - reflexivity.
  - vm_compute. reflexivity.
  - vm_compute. reflexivity.
  - split; assumption.
Defined.

(** C1: the claim holds of what the handler sets out to do (its comment:
    send the message to all other clients in the room) but not of the
    code: the log line before the [emit] raises on a [dict] whose [type]
    cannot be written to standard output, and on a payload that is not a
    [dict]; with one other member in the room the sender's relay then
    makes no send at all. *)
Theorem relay_log_line_aborts :
  "A" ∈ room_members (run [EvConnect "A"; EvConnect "B"]) /\
  size (room_members (run [EvConnect "A"; EvConnect "B"])) = 2 /\
  handle_signal "A" surrogate_payload (run [EvConnect "A"; EvConnect "B"]) =
    (Raise UnicodeEncodeError, run [EvConnect "A"; EvConnect "B"], []) /\
  handle_signal "A" (PyStr "hello") (run [EvConnect "A"; EvConnect "B"]) =
    (Raise AttributeError, run [EvConnect "A"; EvConnect "B"], []).
Proof. repeat split; vm_compute; reflexivity. Qed.

(** C2 (as amended): the relay handler does not check its sender.  In
    every state reached by a sequence of events, a relay event whose
    payload passes the log line (a [dict] whose [type] can be written to
    standard output) and whose sender is not registered, or not a member
    of the default room, raises no error and changes no state, and its
    payload is sent to every current member of the room; no send occurs
    only when the room is empty. *)
Theorem relay_unknown_sender (es : list transport_event) (sender : string)
    (message : pyvalue) :
  loggable message = true ->
  sender ∉ registered (run es) \/ sender ∉ room_members (run es) ->
  outcome (handle_signal sender message (run es)) = Ok tt /\
  world_after (handle_signal sender message (run es)) = run es /\
  emitted (handle_signal sender message (run es)) =
    ((fun t => Emission t "signal" message)
       <$> elements (room_members (run es))) /\
  length (emitted (handle_signal sender message (run es))) =
    size (room_members (run es)).
Proof.
  intros Hlog Habsent.
  assert (Hnot : sender ∉ room_members (run es)).
  { destruct Habsent as [Hreg|Hmem]; [|exact Hmem].
    intros Hmem. apply Hreg. by apply (cons_members _ (consistent_run es) chat_room). }
  assert (Hsame : members_except chat_room sender (run es) = room_members (run es)).
  { unfold members_except. fold (room_members (run es)).
    apply set_eq. intros x. rewrite elem_of_difference, elem_of_singleton.
    split; [tauto|]. intros Hx. split; [done|]. by intros ->. }
  rewrite handle_signal_loggable, Hsame by done.
  unfold outcome, world_after, emitted; simpl.
  repeat split. by rewrite length_fmap.
Qed.

Lemma relay_unknown_sender_witness :
  emitted (handle_signal "A" (PyDict [("type", PyStr "offer")])
             (run [EvConnect "A"; EvDisconnect "A"])) = [].
Proof.
  pose proof (relay_unknown_sender [EvConnect "A"; EvDisconnect "A"] "A"
                (PyDict [("type", PyStr "offer")])) as H.
  destruct H as (_ & _ & Hout & _).
  - reflexivity.
  - left. apply (bool_decide_unpack _). vm_compute. exact I.
  - rewrite Hout. vm_compute. reflexivity.
Defined.

(** C2 as stated fails: a relay tagged with a connection that has
    disconnected is still sent to the member that remains. *)
Lemma relay_unknown_sender_counterexample :
  ("A" ∉ registered (run [EvConnect "A"; EvConnect "B"; EvDisconnect "A"])) /\
  ("A" ∉ room_members (run [EvConnect "A"; EvConnect "B"; EvDisconnect "A"])) /\
  emitted (handle_signal "A" (PyDict [("type", PyStr "offer")])
             (run [EvConnect "A"; EvConnect "B"; EvDisconnect "A"])) =
    [Emission "B" "signal" (PyDict [("type", PyStr "offer")])].
Proof.
  split; [|split].
  - apply (bool_decide_unpack _). vm_compute. exact I.
  - apply (bool_decide_unpack _). vm_compute. exact I.
  - vm_compute. reflexivity.
Qed.

(** C3: for every relay event, what the handler delivers is the payload
    the sender submitted, under the event name [signal]: every emission
    carries the submitted payload itself, and whenever the event passes
    the log line there is exactly one such emission for each member of
    the room other than the sender (otherwise nothing is delivered). *)
Theorem relay_payload_verbatim (w : world) (sender : string) (message : pyvalue) :
  Forall (fun e => event e = "signal" /\ data e = message)
         (emitted (handle_signal sender message w)) /\
  emitted (handle_signal sender message w) =
    (if loggable message
     then (fun t => Emission t "signal" message)
            <$> elements (room_members w ∖ {[sender]})
     else []).
Proof.
  destruct (loggable message) eqn:Hl.
  - rewrite handle_signal_loggable by done. unfold emitted; simpl.
    split; [|reflexivity].
    apply Forall_fmap, Forall_forall. by intros t _.
  - destruct (handle_signal_not_loggable sender message w Hl) as (_ & -> & _).
    split; [constructor | reflexivity].
Qed.

(** C9: for every relay event whose payload is not a [dict], the handler
    raises at the [message.get] of its logging line, before any send and
    without touching the state. *)
Theorem relay_non_dict_raises (w : world) (sender : string) (message : pyvalue) :
  is_dict message = false ->
  outcome (handle_signal sender message w) = Raise AttributeError /\
  emitted (handle_signal sender message w) = [] /\
  world_after (handle_signal sender message w) = w.
Proof. intros Hd. by rewrite handle_signal_not_dict. Qed.

Lemma relay_non_dict_raises_witness :
  outcome (handle_signal "A" (PyList [PyInt 1; PyInt 2])
             (run [EvConnect "A"; EvConnect "B"])) = Raise AttributeError.
Proof.
  apply (relay_non_dict_raises (run [EvConnect "A"; EvConnect "B"]) "A"
           (PyList [PyInt 1; PyInt 2])).
  reflexivity.
Defined.

(** C10: for every sender and every payload, a relay event leaves the
    registry and the default room's member set as they were. *)
Theorem relay_frame (w : world) (sender : string) (message : pyvalue) :
  connected_users (world_after (handle_signal sender message w)) = connected_users w /\
  room_members (world_after (handle_signal sender message w)) = room_members w /\
  world_after (handle_signal sender message w) = w.
Proof. by rewrite handle_signal_world. Qed.

(** ** Disconnect *)

(** C4: for every connection c, [handle_disconnect] takes c out of the
    default room before the departure broadcast is computed: the
    [user-left] notification goes to the members of the room as it is
    afterwards, that is to every remaining member and never to c. *)
Theorem disconnect_excludes_self (w : world) (c : string) :
  room_members (world_after (handle_disconnect c w)) = room_members w ∖ {[c]} /\
  targets (emitted (handle_disconnect c w)) =
    elements (room_members (world_after (handle_disconnect c w))) /\
  Forall (fun e => event e = "user-left") (emitted (handle_disconnect c w)) /\
  (forall t, t ∈ targets (emitted (handle_disconnect c w)) <->
             t ∈ room_members w /\ t <> c) /\
  (c ∉ targets (emitted (handle_disconnect c w))) /\
  (forall x, c ∉ members_except chat_room x (world_after (handle_disconnect c w))).
Proof.
  assert (Hm : room_members (world_after (handle_disconnect c w)) = room_members w ∖ {[c]}).
  { unfold room_members. rewrite handle_disconnect_members. by rewrite decide_True. }
  rewrite handle_disconnect_emitted, targets_fmap.
  split; [exact Hm|]. split; [reflexivity|]. split; [|split; [|split]].
  - apply Forall_fmap, Forall_forall. by intros t _.
  - intros t. rewrite elem_of_elements, Hm, elem_of_difference, elem_of_singleton. tauto.
  - rewrite elem_of_elements, Hm, elem_of_difference, elem_of_singleton. tauto.
  - intros x. unfold members_except. fold (room_members (world_after (handle_disconnect c w))).
    rewrite Hm, !elem_of_difference, elem_of_singleton. tauto.
Qed.

(** C8 (as amended): for every disconnect of a connection c, each
    departure notification uses the event name [user-left] and its
    payload is the dictionary with the single key [sid], bound to c. *)
Theorem disconnect_notification (w : world) (c : string) :
  Forall (fun e => event e = "user-left" /\ data e = PyDict [("sid", PyStr c)])
         (emitted (handle_disconnect c w)).
Proof.
  rewrite handle_disconnect_emitted.
  apply Forall_fmap, Forall_forall. by intros t _.
Qed.

(** C8 as stated fails: the payload has no key [connection_id]. *)
Lemma disconnect_notification_counterexample :
  emitted (handle_disconnect "B" (run [EvConnect "A"; EvConnect "B"])) =
    [Emission "A" "user-left" (PyDict [("sid", PyStr "B")])] /\
  PyDict [("sid", PyStr "B")] <> PyDict [("connection_id", PyStr "B")].
Proof. split; [vm_compute; reflexivity | discriminate]. Qed.

(** Disconnecting a connection that is neither registered nor a member
    changes nothing. *)
Lemma disconnect_absent (w : world) (c : string) :
  c ∉ registered w -> c ∉ room_members w ->
  world_after (handle_disconnect c w) = w.
Proof.
  intros Hreg Hmem. apply world_eq.
  - rewrite handle_disconnect_users. apply delete_id.
    by apply not_elem_of_dom.
  - rewrite handle_disconnect_rooms.
    unfold room_members, members in Hmem.
    destruct (rooms w !! chat_room) as [ms|] eqn:E; [|done].
    simpl in Hmem. apply insert_id. rewrite E. f_equal.
    apply set_eq. intros x. rewrite elem_of_difference, elem_of_singleton.
    split; [|tauto]. intros Hx. split; [done|]. by intros ->.
Qed.

(** C6: for every connection c, a second [handle_disconnect] of c raises
    no error and leaves the registry and the room membership as the first
    one left them. *)
Theorem disconnect_twice (w : world) (c : string) :
  outcome (handle_disconnect c (world_after (handle_disconnect c w))) = Ok tt /\
  world_after (handle_disconnect c (world_after (handle_disconnect c w))) =
    world_after (handle_disconnect c w).
Proof.
  split; [apply handle_disconnect_outcome|].
  apply disconnect_absent.
  - unfold registered. rewrite handle_disconnect_users, dom_delete_L.
    rewrite elem_of_difference, elem_of_singleton. intros [_ Hne]. by apply Hne.
  - unfold room_members. rewrite handle_disconnect_members, decide_True by done.
    rewrite elem_of_difference, elem_of_singleton. intros [_ Hne]. by apply Hne.
Qed.

(** ** Connect *)

(** C5 (as amended): in every state reached by a sequence of events,
    [handle_connect] for a connection that is already registered raises no
    error, sends nothing and leaves the whole state as it was. *)
Theorem connect_registered (es : list transport_event) (sid : string) :
  sid ∈ registered (run es) ->
  handle_connect sid (run es) = (Ok tt, run es, []).
Proof.
  intros Hreg. destruct (consistent_run es) as [Hm Hj Hr Ho].
  rewrite handle_connect_eq. do 2 f_equal. apply world_eq; simpl.
  - assert (Hd : sid ∈ dom (connected_users (run es))) by exact Hreg.
    apply elem_of_dom in Hd as [v Hv].
    apply insert_id. rewrite Hv. f_equal. by apply Hr.
  - specialize (Hj sid Hreg). unfold room_members, members in Hj |- *.
    destruct (rooms (run es) !! chat_room) as [ms|] eqn:E; simpl in Hj.
    + apply insert_id. rewrite E. simpl. f_equal.
      apply set_eq. intros x. rewrite elem_of_union, elem_of_singleton.
      split; [tauto|]. intros [->|Hx]; done.
    + by apply elem_of_empty in Hj.
Qed.

Lemma connect_registered_witness :
  handle_connect "A" (run [EvConnect "A"; EvConnect "B"]) =
    (Ok tt, run [EvConnect "A"; EvConnect "B"], []).
Proof.
  apply (connect_registered [EvConnect "A"; EvConnect "B"] "A").
  vm_compute. reflexivity.
Defined.

(** C5 as stated fails: registering again an identifier that is already
    registered returns normally. *)
Lemma connect_registered_counterexample :
  "A" ∈ registered (run [EvConnect "A"]) /\
  outcome (handle_connect "A" (run [EvConnect "A"])) = Ok tt.
Proof. split; vm_compute; reflexivity. Qed.

(** ** Referential integrity *)

(** C7: in every state reachable from the initial one by a sequence of
    connect, disconnect and relay events, every connection in the member
    set of any room is registered. *)
Theorem referential_integrity (w : world) (room c : string) :
  reachable w -> c ∈ members room w -> c ∈ registered w.
Proof.
  intros [es ->]%reachable_run. apply (cons_members _ (consistent_run es)).
Qed.

Lemma referential_integrity_witness :
  "A" ∈ registered (step (step initial (EvConnect "A")) (EvSignal "A" PyNone)).
Proof.
  apply (referential_integrity _ chat_room "A").
  - apply reachable_step, reachable_step, reachable_initial.
  - vm_compute. reflexivity.
Defined.

(** ** The scenarios of the specification *)

(** Scenario A: A and B connect, A relays an offer; B receives it as
    [signal], A receives nothing. *)
Example scenario_a :
  emitted (handle_signal "A" (PyDict [("type", PyStr "offer"); ("sdp", PyStr "v=0")])
             (run [EvConnect "A"; EvConnect "B"])) =
    [Emission "B" "signal" (PyDict [("type", PyStr "offer"); ("sdp", PyStr "v=0")])].
Proof. vm_compute. reflexivity. Qed.

(** Scenario B: A, B and C are connected and B disconnects; A and C each
    receive one [user-left] about B, B receives nothing. *)
Example scenario_b :
  emitted (handle_disconnect "B" (run [EvConnect "A"; EvConnect "B"; EvConnect "C"])) ≡ₚ
    [Emission "A" "user-left" (PyDict [("sid", PyStr "B")]);
     Emission "C" "user-left" (PyDict [("sid", PyStr "B")])].
Proof.
  rewrite handle_disconnect_emitted.
  change [Emission "A" "user-left" (PyDict [("sid", PyStr "B")]);
          Emission "C" "user-left" (PyDict [("sid", PyStr "B")])]
    with ((fun t => Emission t "user-left" (PyDict [("sid", PyStr "B")])) <$> ["A"; "C"]).
  apply fmap_Permutation.
  apply NoDup_Permutation.
  - apply NoDup_elements.
  - repeat constructor; rewrite ?elem_of_cons, ?elem_of_nil; intuition discriminate.
  - intros x. rewrite elem_of_elements.
    unfold room_members. rewrite handle_disconnect_members, decide_True by done.
    replace (members chat_room (run [EvConnect "A"; EvConnect "B"; EvConnect "C"]))
      with ({["C"]} ∪ ({["B"]} ∪ ({["A"]} ∪ ∅)) : gset string).
    + rewrite elem_of_difference, !elem_of_union, !elem_of_singleton,
        !elem_of_cons, elem_of_nil, elem_of_empty.
      split.
      * intros [[->|[->|[->|[]]]] Hne]; [by right; left | by destruct Hne | by left].
      * intros [->|[->|[]]]; (split; [tauto | discriminate]).
    + symmetry. unfold run; simpl. unfold step. simpl.
      rewrite !handle_connect_members. rewrite !decide_True by done.
      unfold members; simpl. by rewrite lookup_empty.
Qed.

(** Scenario D: A connects and disconnects twice; after the second
    disconnect the state is the one after the first. *)
Example scenario_d :
  run [EvConnect "A"; EvDisconnect "A"; EvDisconnect "A"] =
  run [EvConnect "A"; EvDisconnect "A"].
Proof.
  change (step (step (run [EvConnect "A"]) (EvDisconnect "A")) (EvDisconnect "A") =
          step (run [EvConnect "A"]) (EvDisconnect "A")).
  unfold step; simpl.
  apply disconnect_absent.
  - unfold registered. rewrite handle_disconnect_users, dom_delete_L.
    rewrite elem_of_difference, elem_of_singleton. intros [_ Hne]. by apply Hne.
  - unfold room_members. rewrite handle_disconnect_members, decide_True by done.
    rewrite elem_of_difference, elem_of_singleton. intros [_ Hne]. by apply Hne.
Qed.

(** * Further properties of the handlers *)

Lemma handle_connect_registered (sid : string) (w : world) :
  registered (world_after (handle_connect sid w)) = {[sid]} ∪ registered w.
Proof. unfold registered. rewrite handle_connect_eq. apply dom_insert_L. Qed.

Lemma handle_disconnect_registered (sid : string) (w : world) :
  registered (world_after (handle_disconnect sid w)) = registered w ∖ {[sid]}.
Proof. unfold registered. rewrite handle_disconnect_users. apply dom_delete_L. Qed.

Lemma consistent_registered (w : world) :
  consistent w -> registered w = room_members w.
Proof.
  intros [Hm Hj _ _]. apply set_eq. intros c. split; [apply Hj | apply Hm].
Qed.

(** X1: [handle_connect] never raises and announces nothing; afterwards
    the registry maps the connection to the record holding its own
    identifier and every other entry is as before, and the connection has
    joined the default room while every other room is as before. *)
Theorem connect_effect (w : world) (sid : string) :
  outcome (handle_connect sid w) = Ok tt /\
  emitted (handle_connect sid w) = [] /\
  (forall c, connected_users (world_after (handle_connect sid w)) !! c =
             if decide (c = sid) then Some (PyDict [("sid", PyStr sid)])
             else connected_users w !! c) /\
  (forall room, members room (world_after (handle_connect sid w)) =
                if decide (room = chat_room) then {[sid]} ∪ members room w
                else members room w).
Proof.
  split; [reflexivity|]. split; [reflexivity|]. split.
  - intros c. rewrite handle_connect_eq. unfold world_after; simpl.
    destruct (decide (c = sid)) as [->|Hne].
    + by rewrite lookup_insert_eq.
    + by rewrite lookup_insert_ne.
  - intros room. apply handle_connect_members.
Qed.

(** X2: [handle_disconnect] never raises, whether or not the connection
    is known; afterwards the connection has no registry entry and is in no
    member set of the default room, and every other entry and every other
    room is as before. *)
Theorem disconnect_effect (w : world) (sid : string) :
  outcome (handle_disconnect sid w) = Ok tt /\
  (forall c, connected_users (world_after (handle_disconnect sid w)) !! c =
             if decide (c = sid) then None else connected_users w !! c) /\
  (forall room, members room (world_after (handle_disconnect sid w)) =
                if decide (room = chat_room) then members room w ∖ {[sid]}
                else members room w).
Proof.
  split; [apply handle_disconnect_outcome|]. split.
  - intros c. rewrite handle_disconnect_users.
    destruct (decide (c = sid)) as [->|Hne].
    + by rewrite lookup_delete_eq.
    + by rewrite lookup_delete_ne.
  - intros room. apply handle_disconnect_members.
Qed.

Lemma run_registered_members (es : list transport_event) :
  registered (run es) = room_members (run es).
Proof. apply consistent_registered, consistent_run. Qed.

(** X3: in every state reached by a sequence of events, the registered
    connections are exactly the members of the default room. *)
Theorem registry_is_membership (es : list transport_event) :
  registered (run es) = room_members (run es).
Proof. apply consistent_registered, consistent_run. Qed.

(** X4: in every state reached by a sequence of events, the record kept
    for a registered connection is the dictionary holding its own
    identifier under [sid]. *)
Theorem registry_records (es : list transport_event) (c : string) :
  c ∈ registered (run es) ->
  connected_users (run es) !! c = Some (PyDict [("sid", PyStr c)]).
Proof.
  intros Hc.
  assert (Hd : c ∈ dom (connected_users (run es))) by exact Hc.
  apply elem_of_dom in Hd as [v Hv]. rewrite Hv. f_equal.
  by apply (cons_record _ (consistent_run es)).
Qed.

Lemma registry_records_witness :
  connected_users (run [EvConnect "A"; EvConnect "B"; EvDisconnect "A"]) !! "B" =
    Some (PyDict [("sid", PyStr "B")]).
Proof.
  apply (registry_records [EvConnect "A"; EvConnect "B"; EvDisconnect "A"] "B").
  vm_compute. reflexivity.
Defined.

Lemma difference_singleton_not_in (X : gset string) (c : string) :
  c ∉ X -> X ∖ {[c]} = X.
Proof.
  intros Hc. apply set_eq. intros x. rewrite elem_of_difference, elem_of_singleton.
  split; [tauto|]. intros Hx. split; [done|]. by intros ->.
Qed.

Lemma union_difference_singleton (X : gset string) (c : string) :
  c ∉ X -> ({[c]} ∪ X) ∖ {[c]} = X.
Proof.
  intros Hc. apply set_eq. intros x.
  rewrite elem_of_difference, elem_of_union, elem_of_singleton.
  split.
  - intros [[->|Hx] Hne]; [by destruct Hne | done].
  - intros Hx. split; [by right|]. by intros ->.
Qed.

(** X6: a connect followed by the disconnect of the same connection, for
    a connection that was neither registered nor a member, gives back the
    registry and the member set of every room, and the departure is
    notified to exactly the connections that were members before. *)
Theorem connect_disconnect_roundtrip (w : world) (sid : string) :
  sid ∉ registered w -> sid ∉ room_members w ->
  connected_users (world_after (handle_disconnect sid (world_after (handle_connect sid w)))) =
    connected_users w /\
  (forall room,
     members room (world_after (handle_disconnect sid (world_after (handle_connect sid w)))) =
       members room w) /\
  targets (emitted (handle_disconnect sid (world_after (handle_connect sid w)))) =
    elements (room_members w).
Proof.
  intros Hreg Hmem.
  assert (Hrooms : forall room,
    members room (world_after (handle_disconnect sid (world_after (handle_connect sid w)))) =
      members room w).
  { intros room. rewrite handle_disconnect_members, handle_connect_members.
    destruct (decide (room = chat_room)) as [->|Hne]; [|done].
    by apply union_difference_singleton. }
  split; [|split].
  - rewrite handle_disconnect_users, handle_connect_eq. unfold world_after; simpl.
    rewrite delete_insert_eq. apply delete_id. by apply not_elem_of_dom.
  - exact Hrooms.
  - rewrite handle_disconnect_emitted, targets_fmap. unfold room_members.
    by rewrite Hrooms.
Qed.

Lemma connect_disconnect_roundtrip_witness :
  connected_users (world_after (handle_disconnect "B"
     (world_after (handle_connect "B" (run [EvConnect "A"]))))) =
    connected_users (run [EvConnect "A"]).
Proof.
  pose proof (connect_disconnect_roundtrip (run [EvConnect "A"]) "B") as H.
  destruct H as (Hu & _ & _).
  - apply (bool_decide_unpack _). vm_compute. exact I.
  - apply (bool_decide_unpack _). vm_compute. exact I.
  - exact Hu.
Defined.

(** X7: a repeated disconnect broadcasts again: the second
    [handle_disconnect] of a connection emits the same [user-left]
    notifications, to the same connections, as the first. *)
Theorem disconnect_rebroadcast (w : world) (c : string) :
  emitted (handle_disconnect c (world_after (handle_disconnect c w))) =
    emitted (handle_disconnect c w).
Proof.
  rewrite !handle_disconnect_emitted. do 2 f_equal.
  unfold room_members. rewrite !handle_disconnect_members, !decide_True by done.
  apply difference_singleton_not_in.
  rewrite elem_of_difference, elem_of_singleton. intros [_ Hne]. by apply Hne.
Qed.

(** X8: [handle_signal] returns normally exactly when the payload is
    a [dict] whose [type] entry (read as [None] when the key is missing)
    can be written to standard output; a payload that is not a [dict]
    raises [AttributeError], a [dict] whose [type] cannot be written
    raises [UnicodeEncodeError], and a relay that raises sends nothing. *)
Theorem relay_outcome (w : world) (sender : string) (message : pyvalue) :
  outcome (handle_signal sender message w) =
    (if loggable message then Ok tt
     else if is_dict message then Raise UnicodeEncodeError
     else Raise AttributeError) /\
  (outcome (handle_signal sender message w) = Ok tt <-> loggable message = true) /\
  (loggable message = false -> emitted (handle_signal sender message w) = []).
Proof.
  destruct (loggable message) eqn:Hl.
  - rewrite handle_signal_loggable by done. by repeat split.
  - destruct (handle_signal_not_loggable sender message w Hl) as (_ & Hout & Hres).
    rewrite Hres. split; [by destruct (is_dict message)|]. split; [|done].
    split; intros H; [by destruct (is_dict message) | discriminate H].
Qed.

(** X9: in every state reached by a sequence of events, a relayed
    payload that passes the log line is sent to exactly the registered
    connections other than the sender, once each. *)
Theorem relay_reaches_registered (es : list transport_event) (sender : string)
    (message : pyvalue) :
  loggable message = true ->
  (forall t, t ∈ targets (emitted (handle_signal sender message (run es))) <->
             t ∈ registered (run es) /\ t <> sender) /\
  NoDup (targets (emitted (handle_signal sender message (run es)))) /\
  length (emitted (handle_signal sender message (run es))) =
    size (registered (run es) ∖ {[sender]}).
Proof.
  intros Hlog. rewrite handle_signal_loggable by done.
  unfold emitted; simpl. rewrite targets_fmap.
  unfold members_except. fold (room_members (run es)).
  rewrite <- run_registered_members.
  split; [|split].
  - intros t. rewrite elem_of_elements, elem_of_difference, elem_of_singleton. tauto.
  - apply NoDup_elements.
  - by rewrite length_fmap.
Qed.

Lemma relay_reaches_registered_witness :
  length (emitted (handle_signal "C" (PyDict [("sdp", PyStr "v=0")])
                     (run [EvConnect "A"; EvConnect "B"; EvSignal "A" surrogate_payload]))) = 2.
Proof.
  pose proof (relay_reaches_registered
                [EvConnect "A"; EvConnect "B"; EvSignal "A" surrogate_payload] "C"
                (PyDict [("sdp", PyStr "v=0")])) as H.
  destruct H as (_ & _ & Hlen).
  - reflexivity.
  - rewrite Hlen. vm_compute. reflexivity.
Defined.

(** X10: in every state reached by a sequence of events, the departure
    of a connection is notified to exactly the registered connections
    other than the one that leaves, which are the connections registered
    once the disconnect has been handled. *)
Theorem disconnect_notifies_registered (es : list transport_event) (c : string) :
  (forall t, t ∈ targets (emitted (handle_disconnect c (run es))) <->
             t ∈ registered (run es) /\ t <> c) /\
  (forall t, t ∈ targets (emitted (handle_disconnect c (run es))) <->
             t ∈ registered (run (es ++ [EvDisconnect c]))) /\
  length (emitted (handle_disconnect c (run es))) = size (registered (run es) ∖ {[c]}).
Proof.
  assert (Hafter : room_members (world_after (handle_disconnect c (run es))) =
                   registered (run es) ∖ {[c]}).
  { unfold room_members. rewrite handle_disconnect_members, decide_True by done.
    fold (room_members (run es)). by rewrite <- run_registered_members. }
  rewrite handle_disconnect_emitted, targets_fmap, length_fmap, Hafter.
  split; [|split].
  - intros t. rewrite elem_of_elements, elem_of_difference, elem_of_singleton. tauto.
  - intros t. rewrite elem_of_elements, run_snoc. unfold step; simpl.
    by rewrite handle_disconnect_registered.
  - reflexivity.
Qed.

Lemma alive_snoc (es : list transport_event) (e : transport_event) (c : string) :
  alive (es ++ [e]) c = alive_step c (alive es c) e.
Proof. unfold alive. by rewrite foldl_app. Qed.

(** X11: after any sequence of events a connection is registered exactly
    when its last connect or disconnect event is a connect; relay events
    and the events of other connections play no part. *)
Theorem registered_iff_alive (es : list transport_event) (c : string) :
  c ∈ registered (run es) <-> alive es c = true.
Proof.
  induction es as [|e es IH] using rev_ind.
  - unfold registered, run, alive; simpl. rewrite dom_empty_L, elem_of_empty.
    split; [tauto | discriminate].
  - rewrite run_snoc, alive_snoc. unfold step.
    destruct e as [sid|sid|sid message]; simpl.
    + rewrite handle_connect_registered, elem_of_union, elem_of_singleton.
      destruct (decide (sid = c)) as [->|Hne].
      * split; [done | by left].
      * rewrite IH. split; [intros [->|H]; done | by right].
    + rewrite handle_disconnect_registered, elem_of_difference, elem_of_singleton.
      destruct (decide (sid = c)) as [->|Hne].
      * split; [intros [_ H]; by destruct H | discriminate].
      * rewrite IH. split; [tauto|]. intros H. split; [done|]. by intros ->.
    + by rewrite handle_signal_world.
Qed.

Lemma foldl_step_without_signals (es : list transport_event) (w : world) :
  foldl step w (without_signals es) = foldl step w es.
Proof.
  revert w. induction es as [|e es IH]; intros w; [done|].
  destruct e as [sid|sid|sid message]; simpl.
  - apply IH.
  - apply IH.
  - rewrite IH. f_equal. unfold step; simpl. by rewrite handle_signal_world.
Qed.

(** X12: relay events leave no trace in the state: a sequence of events
    reaches the same state as the sequence with its relay events taken
    out, whatever their payloads (also those on which the handler
    raises). *)
Theorem run_ignores_signals (es : list transport_event) :
  run (without_signals es) = run es.
Proof. apply foldl_step_without_signals. Qed.

(** X13: connecting is idempotent in every state: a second
    [handle_connect] of the same connection returns normally, sends
    nothing and leaves the state as the first one made it. *)
Theorem connect_idempotent (w : world) (sid : string) :
  handle_connect sid (world_after (handle_connect sid w)) =
    (Ok tt, world_after (handle_connect sid w), []).
Proof.
  rewrite !handle_connect_eq. unfold world_after; simpl. do 2 f_equal.
  apply world_eq; simpl.
  - apply insert_insert_eq.
  - rewrite insert_insert_eq. f_equal. unfold members; simpl.
    rewrite lookup_insert_eq. simpl.
    apply set_eq. intros x. rewrite !elem_of_union, elem_of_singleton. tauto.
Qed.

(** ** Events of different connections *)

Lemma step_users_lookup (w : world) (e : transport_event) (c : string) :
  connected_users (step w e) !! c =
    match e with
    | EvConnect sid => if decide (c = sid) then Some (user_info sid) else connected_users w !! c
    | EvDisconnect sid => if decide (c = sid) then None else connected_users w !! c
    | EvSignal _ _ => connected_users w !! c
    end.
Proof.
  unfold step. destruct e as [sid|sid|sid message]; cbn [dispatch].
  - rewrite handle_connect_eq. unfold world_after; simpl.
    destruct (decide (c = sid)) as [->|Hne];
      [by rewrite lookup_insert_eq | by rewrite lookup_insert_ne].
  - rewrite handle_disconnect_users.
    destruct (decide (c = sid)) as [->|Hne];
      [by rewrite lookup_delete_eq | by rewrite lookup_delete_ne].
  - by rewrite handle_signal_world.
Qed.

Lemma step_rooms_lookup (w : world) (e : transport_event) (room : string) :
  rooms (step w e) !! room =
    if decide (room = chat_room) then
      match e with
      | EvConnect sid => Some ({[sid]} ∪ default ∅ (rooms w !! room))
      | EvDisconnect sid => (fun ms => ms ∖ {[sid]}) <$> (rooms w !! room)
      | EvSignal _ _ => rooms w !! room
      end
    else rooms w !! room.
Proof.
  unfold step. destruct e as [sid|sid|sid message]; cbn [dispatch].
  - rewrite handle_connect_eq. unfold world_after, members; simpl.
    destruct (decide (room = chat_room)) as [->|Hne];
      [by rewrite lookup_insert_eq | by rewrite lookup_insert_ne].
  - rewrite handle_disconnect_rooms.
    destruct (decide (room = chat_room)) as [->|Hne].
    + destruct (rooms w !! chat_room) as [ms|] eqn:E.
      * by rewrite lookup_insert_eq.
      * by rewrite E.
    + destruct (rooms w !! chat_room) as [ms|] eqn:E; [|done].
      by rewrite lookup_insert_ne.
  - rewrite handle_signal_world. by destruct (decide (room = chat_room)).
Qed.

#[local] Set Warnings "-clear-no-such-hyp".

(** X14: the events of two different connections commute: handled in
    either order they lead to the same registry and the same room
    table. *)
Theorem step_commute (w : world) (e1 e2 : transport_event) :
  event_sid e1 <> event_sid e2 ->
  step (step w e1) e2 = step (step w e2) e1.
Proof.
  intros Hne. apply world_eq.
  - apply map_eq. intros c. rewrite !step_users_lookup.
    destruct e1 as [a|a|a m1], e2 as [b|b|b m2]; simpl in Hne;
      rewrite ?step_users_lookup; repeat case_decide; congruence.
  - apply map_eq. intros room. rewrite !step_rooms_lookup.
    destruct (decide (room = chat_room)) as [->|Hroom]; [|done].
    destruct e1 as [a|a|a m1], e2 as [b|b|b m2]; simpl in Hne;
      rewrite ?step_rooms_lookup, ?decide_True by done;
      destruct (rooms w !! chat_room) as [ms|]; simpl; try reflexivity;
      f_equal; set_solver.
Qed.

Lemma step_commute_witness :
  step (step initial (EvConnect "A")) (EvDisconnect "B") =
  step (step initial (EvDisconnect "B")) (EvConnect "A").
Proof.
  apply (step_commute initial (EvConnect "A") (EvDisconnect "B")).
  discriminate.
Defined.
